(** * Query builders of [monday/query_joins.py]

    A shallow embedding of the query-building module: every builder is a
    function from its (Python) arguments to the text of the query or mutation
    it returns.  Python's [%]-formatting with [%s] conversions is string
    concatenation of [str] renderings, and is written as such. *)

From Stdlib Require Import ZArith Ascii String List Bool Lia.
From Stdlib Require Import Numbers.DecimalString.
From stdpp Require Import base option countable gmap.

Set Warnings "-register-all".

Open Scope Z_scope.
Open Scope list_scope.
Open Scope string_scope.

(** ** Text *)

(** Characters are code points below 256; a Python string is the sequence
    of its code points. *)

Definition dq : string := String "034"%char EmptyString.
Definition sq : string := String "039"%char EmptyString.
Definition bs : string := String "092"%char EmptyString.

Definition chr (c : ascii) : string := String c EmptyString.

(** [sep.join(parts)] *)
Fixpoint join (sep : string) (parts : list string) : string :=
  match parts with
  | [] => ""
  | [p] => p
  | p :: rest => p ++ sep ++ join sep rest
  end.

(** [needle in hay] *)
Fixpoint contains (needle hay : string) : bool :=
  String.prefix needle hay
  || match hay with
     | EmptyString => false
     | String _ hay' => contains needle hay'
     end.

(** [str.lower()] on code points below 256. *)
Definition lower_char (c : ascii) : ascii :=
  let n := N_of_ascii c in
  if ((65 <=? n) && (n <=? 90))%N then ascii_of_N (n + 32)
  else if ((192 <=? n) && (n <=? 222) && negb (n =? 215))%N then ascii_of_N (n + 32)
  else c.

Fixpoint lower (s : string) : string :=
  match s with
  | EmptyString => EmptyString
  | String c s' => String (lower_char c) (lower s')
  end.

(** [str(n)] for an [int]. *)
Definition str_int (n : Z) : string := NilZero.string_of_int (Z.to_int n).

Definition hex_digit (n : N) : ascii :=
  if (n <? 10)%N then ascii_of_N (48 + n) else ascii_of_N (87 + n).

(** Two lowercase hexadecimal digits of a code point. *)
Definition hex2 (c : ascii) : string :=
  let n := N_of_ascii c in
  String (hex_digit (n / 16)) (String (hex_digit (n mod 16)) EmptyString).

(** ** Python values *)

(** A member of an [Enum] class whose values are strings: [str(m)] is
    [Class.NAME], [m.value] the underlying value.  The enumeration classes
    themselves ([BoardKind], [BoardState], [BoardsOrderBy], [DuplicateType])
    are declared in [monday.resources.types]; the builders only read
    [.value], so any member is represented by this record. *)
Record EnumMember : Type := mkEnum
  { enum_class : string; enum_name : string; value : string }.

Abbreviation BoardKind := EnumMember (only parsing).
Abbreviation BoardState := EnumMember (only parsing).
Abbreviation BoardsOrderBy := EnumMember (only parsing).
Abbreviation DuplicateType := EnumMember (only parsing).

(** The values a builder is called with: [None], [bool], [int], [str],
    [list], [dict] with string keys (in insertion order) and enum members.
    Tuples are not among them: [template % x] unpacks a tuple [x] instead of
    formatting it, and raises unless it has as many items as the template
    has slots.  Floats and objects of other classes are left out as well. *)
Inductive PyVal : Type :=
| PyNone
| PyBool (b : bool)
| PyInt (n : Z)
| PyStr (s : string)
| PyList (l : list PyVal)
| PyDict (d : list (string * PyVal))
| PyEnum (e : EnumMember).

(** [repr] of a [str]: single quotes unless the text has a single quote
    and no double quote; backslash, the quote, tab, newline and carriage
    return are escaped, other non-printable code points are written
    [\xNN]. *)
Definition repr_quote (s : string) : string :=
  if contains sq s && negb (contains dq s) then dq else sq.

Definition printable (c : ascii) : bool :=
  let n := N_of_ascii c in
  ((32 <=? n) && (n <? 127) || (161 <=? n) && negb (n =? 173))%N.

Definition repr_char (quote : string) (c : ascii) : string :=
  if String.eqb (chr c) quote || String.eqb (chr c) bs then bs ++ chr c
  else if Ascii.eqb c "009" then bs ++ "t"
  else if Ascii.eqb c "010" then bs ++ "n"
  else if Ascii.eqb c "013" then bs ++ "r"
  else if printable c then chr c
  else bs ++ "x" ++ hex2 c.

Fixpoint repr_chars (quote : string) (s : string) : string :=
  match s with
  | EmptyString => EmptyString
  | String c s' => repr_char quote c ++ repr_chars quote s'
  end.

Definition repr_str (s : string) : string :=
  let quote := repr_quote s in quote ++ repr_chars quote s ++ quote.

Definition str_bool (b : bool) : string := if b then "True" else "False".

Definition str_enum (e : EnumMember) : string :=
  enum_class e ++ "." ++ enum_name e.

Fixpoint repr (v : PyVal) : string :=
  match v with
  | PyNone => "None"
  | PyBool b => str_bool b
  | PyInt n => str_int n
  | PyStr s => repr_str s
  | PyList l => "[" ++ join ", " (map repr l) ++ "]"
  | PyDict d =>
      "{" ++ join ", " (map (fun kv => repr_str (fst kv) ++ ": " ++ repr (snd kv)) d) ++ "}"
  | PyEnum e => "<" ++ str_enum e ++ ": " ++ repr_str (value e) ++ ">"
  end.

(** [str(v)], which is what a [%s] conversion inserts. *)
Definition str (v : PyVal) : string :=
  match v with
  | PyStr s => s
  | PyEnum e => str_enum e
  | _ => repr v
  end.

(** Truth value of an object, as tested by [if], [not] and [or]; a member
    of a plain [Enum] class is true. *)
Definition truthy (v : PyVal) : bool :=
  match v with
  | PyNone => false
  | PyBool b => b
  | PyInt n => negb (n =? 0)%Z
  | PyStr s => negb (String.eqb s "")
  | PyList l => match l with [] => false | _ => true end
  | PyDict d => match d with [] => false | _ => true end
  | PyEnum _ => true
  end.

(** [v is None] *)
Definition is_none (v : PyVal) : bool :=
  match v with PyNone => true | _ => false end.

(** ** JSON *)

(** The objects [json.dumps] accepts: [None], [bool], [int], [str], lists
    and dictionaries with string keys. *)
Inductive json : Type :=
| JNull
| JBool (b : bool)
| JNum (n : Z)
| JStr (s : string)
| JArr (l : list json)
| JObj (d : list (string * json)).

Definition json_truthy (j : json) : bool :=
  match j with
  | JNull => false
  | JBool b => b
  | JNum n => negb (n =? 0)%Z
  | JStr s => negb (String.eqb s "")
  | JArr l => match l with [] => false | _ => true end
  | JObj d => match d with [] => false | _ => true end
  end.

(** String escaping of [json.dumps] ([ensure_ascii=True]) for the code
    points below 256, the ones a text is made of here. *)
Definition json_escape_char (c : ascii) : string :=
  let n := N_of_ascii c in
  if String.eqb (chr c) dq then bs ++ dq
  else if String.eqb (chr c) bs then bs ++ bs
  else if Ascii.eqb c "010" then bs ++ "n"
  else if Ascii.eqb c "013" then bs ++ "r"
  else if Ascii.eqb c "009" then bs ++ "t"
  else if Ascii.eqb c "008" then bs ++ "b"
  else if Ascii.eqb c "012" then bs ++ "f"
  else if ((32 <=? n) && (n <? 127))%N then chr c
  else bs ++ "u00" ++ hex2 c.

Fixpoint json_escape (s : string) : string :=
  match s with
  | EmptyString => EmptyString
  | String c s' => json_escape_char c ++ json_escape s'
  end.

Definition json_string (s : string) : string := dq ++ json_escape s ++ dq.

(** [json.dumps(j)] with the default separators [", "] and [": "]. *)
Fixpoint json_dumps (j : json) : string :=
  match j with
  | JNull => "null"
  | JBool b => if b then "true" else "false"
  | JNum n => str_int n
  | JStr s => json_string s
  | JArr l => "[" ++ join ", " (map json_dumps l) ++ "]"
  | JObj d =>
      "{" ++ join ", " (map (fun kv => json_string (fst kv) ++ ": " ++ json_dumps (snd kv)) d) ++ "}"
  end.

(** ** Helpers of [monday.utils] *)

(** Modelled from the spec: [monday_json_stringify] is defined in
    [monday.utils], outside this module.  The spec has it serialize a
    structured value to compact JSON that is embedded verbatim in the query
    text, an empty map giving [{}]; its example renders the map
    [{"status": {"label": "Done"}}] with [json.dumps]'s default separators. *)
Definition monday_json_stringify (value : json) : string := json_dumps value.

(** Modelled from the spec: [gather_params] is defined in [monday.utils],
    outside this module.  Given the named arguments of a builder and the
    names to exclude, it returns the comma-joined argument list of the
    arguments whose value is present; an enum-valued argument is written as
    its underlying value, a mapping as a nested braced list of its entries,
    a string as a quoted literal and a boolean in lowercase. *)
Fixpoint param_value (v : PyVal) : string :=
  match v with
  | PyNone => "null"
  | PyBool b => lower (str_bool b)
  | PyInt n => str_int n
  | PyStr s => dq ++ s ++ dq
  | PyList l => "[" ++ join ", " (map param_value l) ++ "]"
  | PyDict d =>
      "{" ++ join ", " (map (fun kv => fst kv ++ ": " ++ param_value (snd kv)) d) ++ "}"
  | PyEnum e => value e
  end.

Definition gather_params (params : list (string * PyVal))
    (excluded_params : list string) : string :=
  let present (kv : string * PyVal) :=
      negb (existsb (String.eqb (fst kv)) excluded_params) && negb (is_none (snd kv)) in
  join ", " (map (fun kv => fst kv ++ ": " ++ param_value (snd kv))
                 (List.filter present params)).

(** ** Column types and their fragments *)

(** The members of [ColumnType] this module names: the keys of the table
    below, and [FORMULA], [PROGRESS], [TEAM] and [TEXT], which its comments
    list as members without an entry. *)
Inductive ColumnType : Type :=
| BUTTON | CHECKBOX | COLOR_PICKER | CONNECT_BOARDS | COUNTRY | CREATION_LOG
| DATE | DEPENDENCY | DROPDOWN | EMAIL | FILE | HOUR | ITEM_ID | LAST_UPDATED
| LINK | LOCATION | LONG_TEXT | MIRROR | MONDAY_DOC | NUMBERS | PEOPLE
| PHONE | RATING | STATUS | TAGS | TIMELINE | TIME_TRACKING | VOTE | WEEK
| WORLD_CLOCK | FORMULA | PROGRESS | TEAM | TEXT.

#[global] Instance ColumnType_eq_dec : EqDecision ColumnType.
Proof. solve_decision. Defined.

Definition ColumnType_index (t : ColumnType) : nat :=
  match t with
  | BUTTON => 0 | CHECKBOX => 1 | COLOR_PICKER => 2 | CONNECT_BOARDS => 3
  | COUNTRY => 4 | CREATION_LOG => 5 | DATE => 6 | DEPENDENCY => 7
  | DROPDOWN => 8 | EMAIL => 9 | FILE => 10 | HOUR => 11 | ITEM_ID => 12
  | LAST_UPDATED => 13 | LINK => 14 | LOCATION => 15 | LONG_TEXT => 16
  | MIRROR => 17 | MONDAY_DOC => 18 | NUMBERS => 19 | PEOPLE => 20
  | PHONE => 21 | RATING => 22 | STATUS => 23 | TAGS => 24 | TIMELINE => 25
  | TIME_TRACKING => 26 | VOTE => 27 | WEEK => 28 | WORLD_CLOCK => 29
  | FORMULA => 30 | PROGRESS => 31 | TEAM => 32 | TEXT => 33
  end%nat.

Definition ColumnType_members : list ColumnType :=
  [BUTTON; CHECKBOX; COLOR_PICKER; CONNECT_BOARDS; COUNTRY; CREATION_LOG;
   DATE; DEPENDENCY; DROPDOWN; EMAIL; FILE; HOUR; ITEM_ID; LAST_UPDATED;
   LINK; LOCATION; LONG_TEXT; MIRROR; MONDAY_DOC; NUMBERS; PEOPLE; PHONE;
   RATING; STATUS; TAGS; TIMELINE; TIME_TRACKING; VOTE; WEEK; WORLD_CLOCK;
   FORMULA; PROGRESS; TEAM; TEXT].

#[global] Instance ColumnType_countable : Countable ColumnType.
Proof.
  refine (inj_countable' ColumnType_index
            (fun n => nth n ColumnType_members BUTTON) _).
  intros t; destruct t; reflexivity.
Defined.

(** Modelled from the spec: [format_specific_column_values] is defined in
    [monday.utils], outside this module.  It concatenates, in the order the
    caller supplies them, the fragments of the requested column types that
    have an entry in the table; a type without an entry contributes nothing,
    and no request ([None]) or an empty one gives the empty string. *)
Definition format_specific_column_values
    (specific_column_values : option (list ColumnType))
    (table : gmap ColumnType string) : string :=
  match specific_column_values with
  | None => ""
  | Some requested => String.concat "" (map (fun t => default "" (table !! t)) requested)
  end.

(** ** The module's global state *)

(** The module binds one global object, the dictionary
    [COLUMN_VALUES_SPECIFIC].  A dictionary is mutable, so it lives in a
    store, which the builder that reads it receives and returns. *)
Record Globals : Type := mkGlobals
  { COLUMN_VALUES_SPECIFIC : gmap ColumnType string }.

Definition M (A : Type) : Type := Globals -> A * Globals.

Definition ret {A} (a : A) : M A := fun g => (a, g).

Definition bind {A B} (m : M A) (k : A -> M B) : M B :=
  fun g => let (a, g') := m g in k a g'.

(** Reading a global name. *)
Definition read {A} (name : Globals -> A) : M A := fun g => (name g, g).

Notation "'do' x <- m ; k" := (bind m (fun x => k))
  (at level 10, x name, m at level 100, k at level 200).

Definition COLUMN_VALUES_SPECIFIC_init : gmap ColumnType string :=
  list_to_map
    [ (BUTTON, "
        ... on ButtonValue {
            color
            label
        }");
      (CHECKBOX, "
        ... on CheckboxValue {
            checked
            updated_at
        }");
      (COLOR_PICKER, "
        ... on ColorPickerValue {
            color
            updated_at
        }");
      (CONNECT_BOARDS, "
        ... on BoardRelationValue {
            display_value
            updated_at
            linked_item_ids
            linked_items {
                name
            }
        }");
      (COUNTRY, "
        ... on CountryValue {
            country {
                name
                code
            }
            updated_at
        }");
      (CREATION_LOG, "
        ... on CreationLogValue {
            created_at
            creator {
                name
                id
                email
            }
        }");
      (DATE, "
        ... on DateValue {
            time
            date
            updated_at
            icon
        }");
      (DEPENDENCY, "
        ... on DependencyValue {
            linked_item_ids
            linked_items {
                name
            }
            updated_at
            display_value
            updated_at
        }");
      (DROPDOWN, "
        ... on DropdownValue {
            values {
                id
                label
            }
            column {
                title
            }
        }");
      (EMAIL, "
        ... on EmailValue {
            email
            updated_at
            label
        }
        ");
      (FILE, "
        ... on FileValue {
            files
        }
        ");
      (HOUR, "
        ... on HourValue {
            minute
            hour
            updated_at
        }
        ");
      (ITEM_ID, "
        ... on ItemIdValue {
            item_id
        }
        ");
      (LAST_UPDATED, "
        ... on LastUpdatedValue {
            updated_at
            updater {
                name
            }
            updater_id
        }
        ");
      (LINK, "
        ... on LinkValue {
            url
            url_text
        }
        ");
      (LOCATION, "
        ... on LocationValue {
            address
            city
            city_short
            country
            country_short
            lat
            lng
            place_id
            street
            street_number
            street_number_short
            street_short
            updated_at
        }");
      (LONG_TEXT, "
        ... on LongTextValue {
            updated_at
        }");
      (MIRROR, "
        ... on MirrorValue {
            column {
                title
            }
            display_value
            mirrored_items {
                linked_item {
                    name
                    id
                }
                linked_board {
                    name
                }
                linked_board_id
                mirrored_value
            }
        }");
      (MONDAY_DOC, "
        ... on DocValue {
            file {
                doc {
                  name
                  workspace_id
                  relative_url
                  settings
                }
                creator {
                  id
                  name
                }
                created_at
            }
        }");
      (NUMBERS, "
        ... on NumbersValue {
            number
            symbol
            direction
        }");
      (PEOPLE, "
        ... on PeopleValue {
            persons_and_teams {
                id
                kind
            }
            updated_at
        }");
      (PHONE, "
        ... on PhoneValue {
            country_short_name
            phone
            updated_at
        }");
      (RATING, "
        ... on RatingValue {
            rating
            updated_at
        }");
      (STATUS, "
        ... on StatusValue {
            index
            is_done
            label
            label_style {
                border
                color
            }
            update_id
            updated_at
        }");
      (TAGS, "
        ... on TagsValue {
            tag_ids
        }");
      (TIMELINE, "
        ... on TimelineValue {
            from
            to
            updated_at
            visualization_type
        }");
      (TIME_TRACKING, "
        ... on TimeTrackingValue {
            duration
            history {
                created_at
                ended_at
                ended_user_id
                id
                manually_entered_end_date
                manually_entered_end_time
                manually_entered_start_date
                manually_entered_start_time
                started_at
                started_user_id
                status
                updated_at
            }
            running
            started_at
            updated_at
        }");
      (VOTE, "
        ... on VoteValue {
            vote_count
            voter_ids
            updated_at
        }");
      (WEEK, "
        ... on WeekValue {
            start_date
            end_date
        }");
      (WORLD_CLOCK, "
        ... on WorldClockValue {
            timezone
            updated_at
        }") ].

(** The store after the module is loaded. *)
Definition module_globals : Globals :=
  {| COLUMN_VALUES_SPECIFIC := COLUMN_VALUES_SPECIFIC_init |}.

(** ** The builders *)

(** *** Item resource queries *)

Definition mutate_item_query (board_id group_id item_name : PyVal) (column_values : json)
    (create_labels_if_missing : PyVal) : string :=
  let column_values := if json_truthy column_values then column_values else JObj [] in
  "mutation
    {
        create_item (
            board_id: " ++ str board_id ++ ",
            group_id: " ++ dq ++ str group_id ++ dq ++ ",
            item_name: " ++ dq ++ str item_name ++ dq ++ ",
            column_values: " ++ monday_json_stringify column_values ++ ",
            create_labels_if_missing: " ++ lower (str create_labels_if_missing) ++ "
        ) {
            id
        }
    }".

Definition mutate_subitem_query (parent_item_id subitem_name : PyVal) (column_values : json)
    (create_labels_if_missing : PyVal) : string :=
  let column_values := if json_truthy column_values then column_values else JObj [] in
  "mutation
    {
        create_subitem (
            parent_item_id: " ++ str parent_item_id ++ ",
            item_name: " ++ dq ++ str subitem_name ++ dq ++ ",
            column_values: " ++ monday_json_stringify column_values ++ ",
            create_labels_if_missing: " ++ lower (str create_labels_if_missing) ++ "
        ) {
            id,
            name,
            column_values {
                id,
                text
            },
            board {
                id,
                name
            }
        }
    }".

Definition get_item_query (board_id column_id value limit cursor : PyVal) : string :=
  let columns :=
      if negb (truthy cursor)
      then PyList [PyDict [("column_id", PyStr (str column_id));
                           ("column_values", PyList [PyStr (str value)])]]
      else PyNone in
  let raw_params :=
      [("board_id", board_id); ("column_id", column_id); ("value", value);
       ("limit", limit); ("cursor", cursor); ("columns", columns)] in
  let items_page_params := gather_params raw_params ["column_id"; "value"] in
  "query
        {
            items_page_by_column_values (" ++ items_page_params ++ ") {
                cursor
                items {
                    id
                    name
                    updates {
                        id
                        body
                    }
                    group {
                        id
                        title
                    }
                    column_values {
                        id
                        text
                        value
                    }
                }
            }
        }".

(** [get_item_by_id_query] is the one builder that reads a global of the
    module, the table [COLUMN_VALUES_SPECIFIC]. *)
Definition get_item_by_id_query (ids : PyVal)
    (specific_column_values : option (list ColumnType)) : M string :=
  do table <- read COLUMN_VALUES_SPECIFIC;
  let column_values := format_specific_column_values specific_column_values table in
  ret ("query
        {
            items (ids: " ++ str ids ++ ") {
                id
                name
                group {
                    id
                    title
                }
                column_values {
                    id
                    text
                    value
                    type
                    " ++ column_values ++ "
                }
            }
        }").

Definition update_item_query (board_id item_id column_id : PyVal) (value : json)
    (create_labels_if_missing : PyVal) : string :=
  "mutation
        {
            change_column_value(
                board_id: " ++ str board_id ++ ",
                item_id: " ++ str item_id ++ ",
                column_id: " ++ dq ++ str column_id ++ dq ++ ",
                value: " ++ monday_json_stringify value ++ ",
                create_labels_if_missing: " ++ lower (str create_labels_if_missing) ++ "
            ) {
                id
                name
                column_values {
                    id
                    text
                    value
                }
            }
        }".

Definition move_item_to_group_query (item_id group_id : PyVal) : string :=
  "
    mutation
    {
        move_item_to_group (item_id: " ++ str item_id ++ ", group_id: " ++ dq ++ str group_id ++ dq ++ ")
        {
            id
        }
    }".

Definition archive_item_query (item_id : PyVal) : string :=
  "
    mutation
    {
        archive_item (item_id: " ++ str item_id ++ ")
        {
            id
        }
    }".

Definition delete_item_query (item_id : PyVal) : string :=
  "
    mutation
    {
        delete_item (item_id: " ++ str item_id ++ ")
        {
            id
        }
    }".

(** *** Columns resource queries *)

Definition create_column (board_id column_title : PyVal) (column_type : option EnumMember)
    (defaults : json) (description : PyVal) : string :=
  let defaults := if json_truthy defaults then defaults else JObj [] in
  match column_type with
  | None =>
      "mutation{
            create_column(board_id: " ++ str board_id ++ ", title: " ++ dq ++ str column_title ++ dq ++ ") {
                id
                title
                description
            }
        }"
  | Some column_type =>
      "mutation{
            create_column(board_id: " ++ str board_id ++ ", title: " ++ dq ++ str column_title ++ dq ++ ", description: " ++ dq ++ str description ++ dq ++ ", column_type: " ++ value column_type ++ ", defaults: " ++ monday_json_stringify defaults ++ ") {
                id
                title
                description
            }
        }"
  end.

Definition get_columns_by_board_query (board_ids : PyVal) : string :=
  "query
        {
            boards(ids: " ++ str board_ids ++ ") {
                id
                name
                groups {
                    id
                    title
                }
                columns {
                    title
                    id
                    type
                    settings_str
                 }
            }
        }".

Definition update_multiple_column_values_query (board_id item_id : PyVal) (column_values : json)
    (create_labels_if_missing : PyVal) : string :=
  "mutation
        {
            change_multiple_column_values (
                board_id: " ++ str board_id ++ ",
                item_id: " ++ str item_id ++ ",
                column_values: " ++ monday_json_stringify column_values ++ ",
                create_labels_if_missing: " ++ lower (str create_labels_if_missing) ++ "
            ) {
                id
                name
                column_values {
                  id
                  text
                }
            }
        }".

Definition add_file_to_column_query (item_id column_id : PyVal) : string :=
  "mutation ($file: File!) {
        add_file_to_column (
            file: $file,
            item_id: " ++ str item_id ++ ",
            column_id: " ++ dq ++ str column_id ++ dq ++ "
        ) {
            id
        }
    }".

(** *** Update resource queries *)

Definition create_update_query (item_id : PyVal) (update_value : json) : string :=
  "mutation
        {
            create_update(
                item_id: " ++ str item_id ++ ",
                body: " ++ json_dumps update_value ++ "
            ) {
                id
            }
        }".

Definition delete_update_query (item_id : PyVal) : string :=
  "mutation {
        delete_update (id: " ++ str item_id ++ ") {
            id
        }
    }".

Definition get_updates_for_item_query (item limit : PyVal) : string :=
  "query{
        items(ids: " ++ str item ++ "){
            updates (limit: " ++ str limit ++ ") {
                id,
                body,
                created_at,
                updated_at,
                creator {
                  id,
                  name,
                  email
                },
                assets {
                  id,
                  name,
                  url,
                  file_extension,
                  file_size
                },
                replies {
                    id,
                    body,
                    creator{
                        id,
                        name,
                        email
                    },
                    created_at,
                    updated_at
                }
            }
        }
    }".

Definition get_update_query (limit page : PyVal) : string :=
  "query
        {
            updates (
                limit: " ++ str limit ++ ",
                page: " ++ str (if truthy page then page else PyInt 1) ++ "
            ) {
                id,
                body
            }
        }".

(** *** Tag resource queries *)

Definition get_tags_query (tags : PyVal) : string :=
  let tags := if is_none tags then PyList [] else tags in
  "query
        {
            tags (ids: " ++ str tags ++ ") {
                name,
                color,
                id
            }
        }".

(** *** Board resource queries *)

Definition get_board_items_query (board_id query_params limit cursor : PyVal) : string :=
  let raw_params :=
      [("board_id", board_id); ("query_params", query_params);
       ("limit", limit); ("cursor", cursor)] in
  let items_page_params := gather_params raw_params ["board_id"] in
  let wrapped_params :=
      if negb (String.eqb items_page_params "") then "(" ++ items_page_params ++ ")" else "" in
  "query{
        boards(ids: " ++ str board_id ++ "){
            name
            items_page " ++ wrapped_params ++ " {
                cursor
                items {
                    group {
                        id
                        title
                    }
                    id
                    name
                    column_values {
                        id
                        text
                        type
                        value
                    }
                }
            }
        }
    }".

Definition get_boards_query (limit page ids board_kind state order_by : PyVal) : string :=
  let parameters :=
      [("limit", limit); ("page", page); ("ids", ids); ("board_kind", board_kind);
       ("state", state); ("order_by", order_by)] in
  let query_params :=
      flat_map (fun kv =>
        let (k, v) := kv : string * PyVal in
        if negb (is_none v)
        then let value := match v with PyEnum e => PyStr (value e) | _ => v end in
             [k ++ ": " ++ str value]
        else []) parameters in
  let joined_params :=
      match query_params with [] => "" | _ => "(" ++ join ", " query_params ++ ")" end in
  "query
    {
        boards " ++ joined_params ++ " {
            id
            name
            permissions
            tags {
              id
              name
            }
            groups {
                id
                title
            }
            columns {
                id
                title
                type
            }
        }
    }".

Definition get_boards_by_id_query (board_ids : PyVal) : string :=
  "query
    {
        boards (ids: " ++ str board_ids ++ ") {
            id
            name
            permissions
            tags {
              id
              name
            }
            groups {
                id
                title
            }
            columns {
                id
                title
                type
                settings_str
            }
        }
    }".

Definition duplicate_board_query (board_id : PyVal) (duplicate_type : DuplicateType)
    (board_name folder_id keep_subscribers workspace_id : PyVal) : string :=
  let optional_params := "" in
  let optional_params :=
    if negb (is_none board_name)
    then optional_params ++ ", board_name: " ++ dq ++ str board_name ++ dq
    else optional_params in
  let optional_params :=
    if negb (is_none folder_id)
    then optional_params ++ ", folder_id: " ++ str folder_id
    else optional_params in
  let optional_params :=
    if negb (is_none keep_subscribers)
    then optional_params ++ ", keep_subscribers: " ++ str keep_subscribers
    else optional_params in
  let optional_params :=
    if negb (is_none workspace_id)
    then optional_params ++ ",  workspace_id: " ++ str workspace_id
    else optional_params in
  "
    mutation {
        duplicate_board(board_id: " ++ str board_id ++ ", duplicate_type: " ++ value duplicate_type ++ optional_params ++ ") {
            board {
                id
            }
        }
    }
    ".

Definition create_board_by_workspace_query (board_name : PyVal) (board_kind : BoardKind)
    (workspace_id : PyVal) : string :=
  let workspace_query :=
      if truthy workspace_id then "workspace_id: " ++ str workspace_id else "" in
  "
    mutation {
        create_board (board_name:" ++ dq ++ str board_name ++ dq ++ ", board_kind: " ++ value board_kind ++ ", " ++ workspace_query ++ ") {
            id
        }
    }
    ".

(** *** User resource queries *)

Definition get_users_query (kwargs : list (string * PyVal)) : string :=
  let joined_params :=
      match kwargs with
      | [] => ""
      | _ => "(" ++ join ", " (map (fun kv => fst kv ++ ": " ++ str (snd kv)) kwargs) ++ ")"
      end in
  "query
    {
        users " ++ joined_params ++ " {
            id
            name
            email
            enabled
            teams {
              id
              name
            }
        }
    }".

(** *** Group resource queries *)

Definition get_groups_by_board_query (board_ids : PyVal) : string :=
  "query
    {
        boards(ids: " ++ str board_ids ++ ") {
            groups {
                id
                title
                archived
                deleted
                color
            }
        }
    }".

Definition get_items_by_group_query (board_id group_id limit cursor : PyVal) : string :=
  let raw_params :=
      [("board_id", board_id); ("group_id", group_id);
       ("limit", limit); ("cursor", cursor)] in
  let items_page_params := gather_params raw_params ["board_id"; "group_id"] in
  let wrapped_params :=
      if negb (String.eqb items_page_params "") then "(" ++ items_page_params ++ ")" else "" in
  "query
    {
        boards(ids: " ++ str board_id ++ ") {
            groups(ids: " ++ dq ++ str group_id ++ dq ++ ") {
                id
                title
                items_page " ++ wrapped_params ++ " {
                    cursor
                    items {
                        id
                        name
                    }
                }
            }
        }
    }".

Definition create_group_query (board_id group_name : PyVal) : string :=
  "
    mutation
    {
        create_group(board_id: " ++ str board_id ++ ", group_name: " ++ dq ++ str group_name ++ dq ++ ")
        {
            id
        }
    }".

Definition duplicate_group_query (board_id group_id : PyVal) : string :=
  "
    mutation
    {
        duplicate_group(board_id: " ++ str board_id ++ ", group_id: " ++ dq ++ str group_id ++ dq ++ ")
        {
            id
        }
    }".

Definition archive_group_query (board_id group_id : PyVal) : string :=
  "
    mutation
    {
        archive_group(board_id: " ++ str board_id ++ ", group_id: " ++ dq ++ str group_id ++ dq ++ ")
        {
            id
            archived
        }
    }".

Definition delete_group_query (board_id group_id : PyVal) : string :=
  "
    mutation
    {
        delete_group(board_id: " ++ str board_id ++ ", group_id: " ++ dq ++ str group_id ++ dq ++ ")
        {
            id
            deleted
        }
    }".

Definition get_complexity_query : string :=
  "
    query
    {
        complexity {
            after,
            reset_in_x_seconds
        }
    }".

Definition get_workspaces_query : string :=
  "
    query {
        boards {
            workspace {
                id
                name
                kind
                description
            }
        }
    }
    ".

Definition create_workspace_query (name kind description : PyVal) : string :=
  "
    mutation {
        create_workspace (name:" ++ dq ++ str name ++ dq ++ ", kind: " ++ str kind ++ ", description: " ++ dq ++ str description ++ dq ++ ") {
            id
            description
        }
    }
    ".

Definition add_users_to_workspace_query (workspace_id user_ids kind : PyVal) : string :=
  "
    mutation {
        add_users_to_workspace (workspace_id: " ++ str workspace_id ++ ", user_ids: " ++ str user_ids ++ ", kind: " ++ str kind ++ ") {
            id
        }
    }
    ".

Definition delete_users_from_workspace_query (workspace_id user_ids : PyVal) : string :=
  "
    mutation {
        add_users_to_workspace (workspace_id: " ++ str workspace_id ++ ", user_ids: " ++ str user_ids ++ ") {
            id
        }
    }
    ".

Definition add_teams_to_workspace_query (workspace_id team_ids : PyVal) : string :=
  "
    mutation {
        add_teams_to_workspace (workspace_id: " ++ str workspace_id ++ ", team_ids: " ++ str team_ids ++ ") {
            id
        }
    }
    ".

Definition delete_teams_from_workspace_query (workspace_id team_ids : PyVal) : string :=
  "
    mutation {
        delete_teams_from_workspace (workspace_id: " ++ str workspace_id ++ ", team_ids: " ++ str team_ids ++ ") {
            id
        }
    }
    ".

Definition create_notification_query (user_id target_id text target_type : PyVal) : string :=
  "
    mutation {
        create_notification (user_id: " ++ str user_id ++ ", target_id: " ++ str target_id ++ ", text: " ++ dq ++ str text ++ dq ++ ", target_type: " ++ str target_type ++ ") {
            text
            user_id
            target_id
            target_type
        }
    }
    ".

(** *** Me resource queries *)

Definition get_me_query : string :=
  "{
    me {
        account {
            id
        },
        birthday,   
        country_code,   
        created_at, 
        join_date,  
        email,  
        enabled,
        id, 
        is_admin,   
        is_guest,   
        is_pending, 
        is_view_only,   
        location,   
        mobile_phone,   
        name,   
        phone,  
        photo_original, 
        photo_small,
        photo_thumb,
        photo_thumb_small,  
        photo_tiny, 
        teams {
            id,
            name
        },  
        time_zone_identifier,   
        title,  
        url,
        utc_hours_diff, 
        }
    }".

(** ** Calls of the module

    A call names a builder and gives its arguments, and [exec] hands them
    to the builder.  The two are not code of the module: they let a
    statement range over all the builders. *)
Inductive Call : Type :=
| call_mutate_item_query (board_id group_id item_name : PyVal) (column_values : json) (create_labels_if_missing : PyVal)
| call_mutate_subitem_query (parent_item_id subitem_name : PyVal) (column_values : json) (create_labels_if_missing : PyVal)
| call_get_item_query (board_id column_id value limit cursor : PyVal)
| call_get_item_by_id_query (ids : PyVal) (specific_column_values : option (list ColumnType))
| call_update_item_query (board_id item_id column_id : PyVal) (value : json) (create_labels_if_missing : PyVal)
| call_move_item_to_group_query (item_id group_id : PyVal)
| call_archive_item_query (item_id : PyVal)
| call_delete_item_query (item_id : PyVal)
| call_create_column (board_id column_title : PyVal) (column_type : option EnumMember) (defaults : json) (description : PyVal)
| call_get_columns_by_board_query (board_ids : PyVal)
| call_update_multiple_column_values_query (board_id item_id : PyVal) (column_values : json) (create_labels_if_missing : PyVal)
| call_add_file_to_column_query (item_id column_id : PyVal)
| call_create_update_query (item_id : PyVal) (update_value : json)
| call_delete_update_query (item_id : PyVal)
| call_get_updates_for_item_query (item limit : PyVal)
| call_get_update_query (limit page : PyVal)
| call_get_tags_query (tags : PyVal)
| call_get_board_items_query (board_id query_params limit cursor : PyVal)
| call_get_boards_query (limit page ids board_kind state order_by : PyVal)
| call_get_boards_by_id_query (board_ids : PyVal)
| call_duplicate_board_query (board_id : PyVal) (duplicate_type : DuplicateType) (board_name folder_id keep_subscribers workspace_id : PyVal)
| call_create_board_by_workspace_query (board_name : PyVal) (board_kind : BoardKind) (workspace_id : PyVal)
| call_get_users_query (kwargs : list (string * PyVal))
| call_get_groups_by_board_query (board_ids : PyVal)
| call_get_items_by_group_query (board_id group_id limit cursor : PyVal)
| call_create_group_query (board_id group_name : PyVal)
| call_duplicate_group_query (board_id group_id : PyVal)
| call_archive_group_query (board_id group_id : PyVal)
| call_delete_group_query (board_id group_id : PyVal)
| call_get_complexity_query
| call_get_workspaces_query
| call_create_workspace_query (name kind description : PyVal)
| call_add_users_to_workspace_query (workspace_id user_ids kind : PyVal)
| call_delete_users_from_workspace_query (workspace_id user_ids : PyVal)
| call_add_teams_to_workspace_query (workspace_id team_ids : PyVal)
| call_delete_teams_from_workspace_query (workspace_id team_ids : PyVal)
| call_create_notification_query (user_id target_id text target_type : PyVal)
| call_get_me_query.

Definition exec (c : Call) : M string :=
  match c with
  | call_mutate_item_query a0 a1 a2 a3 a4 => ret (mutate_item_query a0 a1 a2 a3 a4)
  | call_mutate_subitem_query a0 a1 a2 a3 => ret (mutate_subitem_query a0 a1 a2 a3)
  | call_get_item_query a0 a1 a2 a3 a4 => ret (get_item_query a0 a1 a2 a3 a4)
  | call_get_item_by_id_query a0 a1 => get_item_by_id_query a0 a1
  | call_update_item_query a0 a1 a2 a3 a4 => ret (update_item_query a0 a1 a2 a3 a4)
  | call_move_item_to_group_query a0 a1 => ret (move_item_to_group_query a0 a1)
  | call_archive_item_query a0 => ret (archive_item_query a0)
  | call_delete_item_query a0 => ret (delete_item_query a0)
  | call_create_column a0 a1 a2 a3 a4 => ret (create_column a0 a1 a2 a3 a4)
  | call_get_columns_by_board_query a0 => ret (get_columns_by_board_query a0)
  | call_update_multiple_column_values_query a0 a1 a2 a3 => ret (update_multiple_column_values_query a0 a1 a2 a3)
  | call_add_file_to_column_query a0 a1 => ret (add_file_to_column_query a0 a1)
  | call_create_update_query a0 a1 => ret (create_update_query a0 a1)
  | call_delete_update_query a0 => ret (delete_update_query a0)
  | call_get_updates_for_item_query a0 a1 => ret (get_updates_for_item_query a0 a1)
  | call_get_update_query a0 a1 => ret (get_update_query a0 a1)
  | call_get_tags_query a0 => ret (get_tags_query a0)
  | call_get_board_items_query a0 a1 a2 a3 => ret (get_board_items_query a0 a1 a2 a3)
  | call_get_boards_query a0 a1 a2 a3 a4 a5 => ret (get_boards_query a0 a1 a2 a3 a4 a5)
  | call_get_boards_by_id_query a0 => ret (get_boards_by_id_query a0)
  | call_duplicate_board_query a0 a1 a2 a3 a4 a5 => ret (duplicate_board_query a0 a1 a2 a3 a4 a5)
  | call_create_board_by_workspace_query a0 a1 a2 => ret (create_board_by_workspace_query a0 a1 a2)
  | call_get_users_query a0 => ret (get_users_query a0)
  | call_get_groups_by_board_query a0 => ret (get_groups_by_board_query a0)
  | call_get_items_by_group_query a0 a1 a2 a3 => ret (get_items_by_group_query a0 a1 a2 a3)
  | call_create_group_query a0 a1 => ret (create_group_query a0 a1)
  | call_duplicate_group_query a0 a1 => ret (duplicate_group_query a0 a1)
  | call_archive_group_query a0 a1 => ret (archive_group_query a0 a1)
  | call_delete_group_query a0 a1 => ret (delete_group_query a0 a1)
  | call_get_complexity_query => ret get_complexity_query
  | call_get_workspaces_query => ret get_workspaces_query
  | call_create_workspace_query a0 a1 a2 => ret (create_workspace_query a0 a1 a2)
  | call_add_users_to_workspace_query a0 a1 a2 => ret (add_users_to_workspace_query a0 a1 a2)
  | call_delete_users_from_workspace_query a0 a1 => ret (delete_users_from_workspace_query a0 a1)
  | call_add_teams_to_workspace_query a0 a1 => ret (add_teams_to_workspace_query a0 a1)
  | call_delete_teams_from_workspace_query a0 a1 => ret (delete_teams_from_workspace_query a0 a1)
  | call_create_notification_query a0 a1 a2 a3 => ret (create_notification_query a0 a1 a2 a3)
  | call_get_me_query => ret get_me_query
  end.

(** ** Vocabulary of the statements *)

(** [needle] occurs in [hay]; [contains] decides it. *)
Definition occurs_in (needle hay : string) : Prop :=
  exists pre post, hay = pre ++ needle ++ post.

(** Sample arguments. *)

Definition DUPLICATE_WITH_STRUCTURE : DuplicateType :=
  mkEnum "DuplicateType" "WITH_STRUCTURE" "duplicate_board_with_structure".

Definition PUBLIC : BoardKind := mkEnum "BoardKind" "PUBLIC" "public".

Definition ACTIVE : BoardState := mkEnum "BoardState" "ACTIVE" "active".

Definition CREATED_AT : BoardsOrderBy := mkEnum "BoardsOrderBy" "CREATED_AT" "created_at".

Definition STATUS_TYPE : EnumMember := mkEnum "ColumnType" "STATUS" "status".

(** The column values [{"status": {"label": "Done"}}]. *)
Definition status_done : json := JObj [("status", JObj [("label", JStr "Done")])].

(** A boolean in lowercase. *)
Definition lower_bool (b : bool) : string := if b then "true" else "false".

(** The text of [get_item_by_id_query] around the inline fragments. *)
Definition items_query_head (ids : PyVal) : string :=
  "query
        {
            items (ids: " ++ str ids ++ ") {
                id
                name
                group {
                    id
                    title
                }
                column_values {
                    id
                    text
                    value
                    type
                    ".

Definition items_query_tail : string :=
  "
                }
            }
        }".

(** ** Brackets *)

Inductive bracket : Type := Brace | Paren | Square.

Definition bracket_eqb (a b : bracket) : bool :=
  match a, b with
  | Brace, Brace | Paren, Paren | Square, Square => true
  | _, _ => false
  end.

Definition opening (c : ascii) : option bracket :=
  if Ascii.eqb c "{" then Some Brace
  else if Ascii.eqb c "(" then Some Paren
  else if Ascii.eqb c "[" then Some Square
  else None.

Definition closing (c : ascii) : option bracket :=
  if Ascii.eqb c "}" then Some Brace
  else if Ascii.eqb c ")" then Some Paren
  else if Ascii.eqb c "]" then Some Square
  else None.

(** Reads a text from left to right with the brackets that are open;
    [None] when a bracket closes that is not the last one opened. *)
Fixpoint scan (s : string) (open : list bracket) : option (list bracket) :=
  match s with
  | EmptyString => Some open
  | String c s' =>
      match opening c with
      | Some b => scan s' (b :: open)
      | None =>
          match closing c with
          | Some b =>
              match open with
              | b' :: open' => if bracket_eqb b b' then scan s' open' else None
              | [] => None
              end
          | None => scan s' open
          end
      end
  end.

(** Every bracket of the text is closed, in order, by its own kind. *)
Definition balanced (s : string) : Prop := scan s [] = Some [].

Definition then_scan (o : option (list bracket)) (s : string) : option (list bracket) :=
  match o with Some open => scan s open | None => None end.

(** A text in pieces: literal pieces of a template ([true]) and the texts
    put between them ([false]). *)
Fixpoint glue (pieces : list (bool * string)) : string :=
  match pieces with
  | [] => ""
  | [p] => snd p
  | p :: pieces' => snd p ++ glue pieces'
  end.

Fixpoint literals (pieces : list (bool * string)) : string :=
  match pieces with
  | [] => ""
  | p :: pieces' => if fst p then snd p ++ literals pieces' else literals pieces'
  end.

(** The texts a call puts into the slots of its template, for the builders
    that format their arguments themselves. *)
Definition emitted (v : PyVal) : string :=
  str (match v with PyEnum e => PyStr (value e) | _ => v end).

Definition or_empty (j : json) : json := if json_truthy j then j else JObj [].

Definition interpolated (call : Call) : option (list string) :=
  match call with
  | call_mutate_item_query b g n cv f =>
      Some [str b; str g; str n; monday_json_stringify (or_empty cv); lower (str f)]
  | call_mutate_subitem_query p n cv f =>
      Some [str p; str n; monday_json_stringify (or_empty cv); lower (str f)]
  | call_update_item_query b i c v f =>
      Some [str b; str i; str c; monday_json_stringify v; lower (str f)]
  | call_update_multiple_column_values_query b i cv f =>
      Some [str b; str i; monday_json_stringify cv; lower (str f)]
  | call_create_column b t ct d desc =>
      Some [str b; str t; str desc; from_option value "" ct;
            monday_json_stringify (or_empty d)]
  | call_create_update_query i v => Some [str i; json_dumps v]
  | call_get_update_query l p => Some [str l; str p]
  | call_get_tags_query t => Some [str t]
  | call_get_boards_query l p i k s o =>
      Some [emitted l; emitted p; emitted i; emitted k; emitted s; emitted o]
  | call_duplicate_board_query b dt n f k w =>
      Some [str b; value dt; str n; str f; str k; str w]
  | call_create_board_by_workspace_query n k w => Some [str n; value k; str w]
  | call_get_users_query kwargs =>
      Some (flat_map (fun kv => [fst kv; str (snd kv)]) kwargs)
  | call_move_item_to_group_query a b | call_add_file_to_column_query a b
  | call_get_updates_for_item_query a b | call_create_group_query a b
  | call_duplicate_group_query a b | call_archive_group_query a b
  | call_delete_group_query a b | call_delete_users_from_workspace_query a b
  | call_add_teams_to_workspace_query a b
  | call_delete_teams_from_workspace_query a b => Some [str a; str b]
  | call_archive_item_query a | call_delete_item_query a
  | call_get_columns_by_board_query a | call_delete_update_query a
  | call_get_boards_by_id_query a | call_get_groups_by_board_query a => Some [str a]
  | call_create_workspace_query a b c | call_add_users_to_workspace_query a b c =>
      Some [str a; str b; str c]
  | call_create_notification_query a b c d => Some [str a; str b; str c; str d]
  | call_get_complexity_query | call_get_workspaces_query | call_get_me_query => Some []
  | call_get_item_query _ _ _ _ _ | call_get_item_by_id_query _ _
  | call_get_board_items_query _ _ _ _ | call_get_items_by_group_query _ _ _ _ => None
  end.

(** ** Kinds of operation *)

Definition is_space (c : ascii) : bool := Ascii.eqb c " " || Ascii.eqb c "010".

Fixpoint word (s : string) : string :=
  match s with
  | EmptyString => EmptyString
  | String c s' =>
      if is_space c || Ascii.eqb c "{" || Ascii.eqb c "(" then EmptyString
      else String c (word s')
  end.

(** The first word of a text, after leading blanks. *)
Fixpoint first_word (s : string) : string :=
  match s with
  | EmptyString => EmptyString
  | String c s' => if is_space c then first_word s' else word s
  end.

(** The builders named [get_...]. *)
Definition is_getter (c : Call) : bool :=
  match c with
  | call_get_item_query _ _ _ _ _ | call_get_item_by_id_query _ _
  | call_get_columns_by_board_query _ | call_get_updates_for_item_query _ _
  | call_get_update_query _ _ | call_get_tags_query _
  | call_get_board_items_query _ _ _ _ | call_get_boards_query _ _ _ _ _ _
  | call_get_boards_by_id_query _ | call_get_users_query _
  | call_get_groups_by_board_query _ | call_get_items_by_group_query _ _ _ _
  | call_get_complexity_query | call_get_workspaces_query | call_get_me_query => true
  | _ => false
  end.

(** * Properties *)

(** ** Occurrences of a text in another *)

#[local] Arguments String.append !s1 s2 : simpl nomatch.

Lemma append_assoc (a b c : string) : (a ++ b) ++ c = a ++ b ++ c.
Proof. induction a as [|x a IH]; simpl; [reflexivity | now rewrite IH]. Qed.

Lemma append_empty_r (a : string) : a ++ "" = a.
Proof. induction a as [|x a IH]; simpl; [reflexivity | now rewrite IH]. Qed.

Lemma prefix_true_iff (n h : string) :
  String.prefix n h = true <-> exists post, h = n ++ post.
Proof.
  revert h; induction n as [|a n IH]; intros h.
  - split; [intros _; exists h; reflexivity | now destruct h].
  - destruct h as [|b h]; simpl.
    + split; [discriminate | intros [post H]; discriminate].
    + destruct (ascii_dec a b) as [->|Hne].
      * rewrite IH. split; intros [post H]; exists post.
        -- now rewrite H.
        -- now inversion H.
      * split; [discriminate | intros [post H]; inversion H; congruence].
Qed.

Lemma contains_unfold (n : string) (c : ascii) (h : string) :
  contains n (String c h) = String.prefix n (String c h) || contains n h.
Proof. reflexivity. Qed.

Lemma contains_spec (n h : string) : contains n h = true <-> occurs_in n h.
Proof.
  induction h as [|c h IH].
  - change (contains n "") with (String.prefix n "" || false).
    rewrite orb_false_r, prefix_true_iff. split.
    + intros [post H]. exists "", post. exact H.
    + intros [[|a pre] [post H]]; [exists post; exact H | discriminate].
  - rewrite contains_unfold, orb_true_iff, prefix_true_iff, IH. split.
    + intros [[post H] | (pre & post & H)].
      * exists "", post. exact H.
      * exists (String c pre), post. simpl. now rewrite H.
    + intros [[|a pre] [post H]].
      * left. exists post. exact H.
      * right. exists pre, post. now inversion H.
Qed.

Lemma contains_intro (pre needle post hay : string) :
  hay = pre ++ needle ++ post -> contains needle hay = true.
Proof. intros H. apply contains_spec. now exists pre, post. Qed.

Lemma contains_here (needle hay post : string) :
  hay = needle ++ post -> contains needle hay = true.
Proof. intros H. now apply (contains_intro "" needle post). Qed.

Lemma contains_skip (c : ascii) (needle hay : string) :
  contains needle hay = true -> contains needle (String c hay) = true.
Proof. intros H. simpl. rewrite H. apply orb_true_r. Qed.

Lemma contains_skip_app (s needle hay : string) :
  contains needle hay = true -> contains needle (s ++ hay) = true.
Proof.
  intros H. induction s as [|c s IH]; [exact H | now apply contains_skip].
Qed.

Lemma contains_app_l (needle hay t : string) :
  contains needle hay = true -> contains needle (hay ++ t) = true.
Proof.
  rewrite !contains_spec. intros (pre & post & ->).
  exists pre, (post ++ t). now rewrite !append_assoc.
Qed.

Lemma contains_trans (a b c : string) :
  contains a b = true -> contains b c = true -> contains a c = true.
Proof.
  rewrite !contains_spec. intros (p1 & q1 & ->) (p2 & q2 & ->).
  exists (p2 ++ p1), (q1 ++ q2). now rewrite !append_assoc.
Qed.

Lemma contains_join (sep s : string) (l : list string) :
  In s l -> contains s (join sep l) = true.
Proof.
  induction l as [|x l IH]; [intros [] |].
  intros [-> | Hin].
  - destruct l; [apply (contains_here s s ""); now rewrite append_empty_r
                | now apply (contains_here s _ (sep ++ join sep (s0 :: l)))].
  - destruct l as [|y l]; [destruct Hin |].
    change (join sep (x :: y :: l)) with (x ++ sep ++ join sep (y :: l)).
    apply contains_skip_app, contains_skip_app, IH, Hin.
Qed.

(** Right-nests appends and reduces them on literals; [occurs] then looks
    for the needle in a text made of literals and opaque pieces. *)
Ltac norm_append :=
  repeat first [rewrite !append_assoc | progress cbn [append]].

Ltac here := eapply contains_here; norm_append; reflexivity.

Ltac find_sub :=
  first [ here
        | apply contains_skip; find_sub
        | lazymatch goal with
          | |- contains _ (String.append _ _) = true =>
              apply contains_skip_app; find_sub
          end ].

Ltac occurs := norm_append; find_sub.

(** ** Operation names *)

Lemma delete_teams_from_workspace_query_name (workspace_id team_ids : PyVal) :
  String.prefix "
    mutation {
        delete_teams_from_workspace ("
    (delete_teams_from_workspace_query workspace_id team_ids) = true.
Proof. reflexivity. Qed.

Lemma add_users_to_workspace_query_name (workspace_id user_ids kind : PyVal) :
  String.prefix "
    mutation {
        add_users_to_workspace ("
    (add_users_to_workspace_query workspace_id user_ids kind) = true.
Proof. reflexivity. Qed.

(** C1.  [delete_users_from_workspace_query] does not name the operation
    [delete_users_from_workspace]: for every workspace and list of users the
    mutation it returns opens with the operation [add_users_to_workspace],
    and for workspace 1 and users [[2]] the name
    [delete_users_from_workspace] occurs nowhere in it. *)
Theorem delete_users_from_workspace_query_names_add_users :
  (forall workspace_id user_ids : PyVal,
      String.prefix "
    mutation {
        add_users_to_workspace (workspace_id:"
        (delete_users_from_workspace_query workspace_id user_ids) = true)
  /\ contains "delete_users_from_workspace"
       (delete_users_from_workspace_query (PyInt 1) (PyList [PyInt 2])) = false
  /\ contains "add_users_to_workspace (workspace_id: 1, user_ids: [2])"
       (delete_users_from_workspace_query (PyInt 1) (PyList [PyInt 2])) = true.
Proof.
  split; [intros; reflexivity | split; vm_compute; reflexivity].
Qed.

(** ** The item example *)

(** C2.  [mutate_item_query(board_id=1, group_id="topics", item_name="Task",
    column_values={"status": {"label": "Done"}},
    create_labels_if_missing=True)] is a [create_item] mutation with
    [board_id: 1], [group_id: "topics"], [item_name: "Task"], the column
    values as the JSON text of the map, and
    [create_labels_if_missing: true]. *)
Theorem mutate_item_query_example :
  mutate_item_query (PyInt 1) (PyStr "topics") (PyStr "Task") status_done (PyBool true)
  = "mutation
    {
        create_item (
            board_id: 1,
            group_id: " ++ dq ++ "topics" ++ dq ++ ",
            item_name: " ++ dq ++ "Task" ++ dq ++ ",
            column_values: {" ++ dq ++ "status" ++ dq ++ ": {" ++ dq ++ "label" ++ dq
       ++ ": " ++ dq ++ "Done" ++ dq ++ "}},
            create_labels_if_missing: true
        ) {
            id
        }
    }".
Proof. vm_compute. reflexivity. Qed.

(** ** Boolean flags *)

Lemma lower_str_bool (b : bool) : lower (str (PyBool b)) = lower_bool b.
Proof. now destruct b. Qed.

(** The builders that take [create_labels_if_missing] lower it. *)
Lemma create_labels_if_missing_lowered (b : bool) (x y z : PyVal) (j : json) :
  contains ("create_labels_if_missing: " ++ lower_bool b)
    (mutate_item_query x y z j (PyBool b)) = true
  /\ contains ("create_labels_if_missing: " ++ lower_bool b)
       (mutate_subitem_query x y j (PyBool b)) = true
  /\ contains ("create_labels_if_missing: " ++ lower_bool b)
       (update_item_query x y z j (PyBool b)) = true
  /\ contains ("create_labels_if_missing: " ++ lower_bool b)
       (update_multiple_column_values_query x y j (PyBool b)) = true.
Proof.
  unfold mutate_item_query, mutate_subitem_query, update_item_query,
    update_multiple_column_values_query.
  cbv zeta. rewrite !lower_str_bool.
  repeat split; occurs.
Qed.

(** C3.  [duplicate_board_query] does not lower [keep_subscribers]: a
    boolean given for it is written the way [str] spells it, [True] or
    [False]; with [keep_subscribers=True] and the other optional arguments
    absent the mutation has [keep_subscribers: True] and no [true]. *)
Theorem duplicate_board_query_keep_subscribers_not_lowered :
  (forall (board_id : PyVal) (duplicate_type : DuplicateType)
          (board_name folder_id workspace_id : PyVal) (b : bool),
      contains (", keep_subscribers: " ++ str_bool b)
        (duplicate_board_query board_id duplicate_type board_name folder_id
           (PyBool b) workspace_id) = true)
  /\ contains "keep_subscribers: True"
       (duplicate_board_query (PyInt 1) DUPLICATE_WITH_STRUCTURE PyNone PyNone
          (PyBool true) PyNone) = true
  /\ contains "true"
       (duplicate_board_query (PyInt 1) DUPLICATE_WITH_STRUCTURE PyNone PyNone
          (PyBool true) PyNone) = false.
Proof.
  split; [| split; vm_compute; reflexivity].
  intros board_id duplicate_type board_name folder_id workspace_id b.
  unfold duplicate_board_query.
  destruct (is_none board_name), (is_none folder_id), (is_none workspace_id);
    cbv beta iota zeta delta [negb is_none]; occurs.
Qed.

(** ** Optional arguments *)

(** The argument list of [items_page] in [get_board_items_query] has the
    arguments that are not [None] and nothing else: with neither limit nor
    cursor there is no argument list at all, with a limit only
    [(limit: n)], with a cursor only the cursor, and with both, both. *)
Lemma get_board_items_query_arguments (board_id : PyVal) :
  let pre := "query{
        boards(ids: " ++ str board_id ++ "){
            name
            items_page " in
  exists post,
    get_board_items_query board_id PyNone PyNone PyNone = pre ++ post
    /\ (forall n, get_board_items_query board_id PyNone (PyInt n) PyNone
                  = pre ++ "(limit: " ++ str_int n ++ ")" ++ post)
    /\ (forall c, get_board_items_query board_id PyNone PyNone (PyStr c)
                  = pre ++ "(cursor: " ++ dq ++ c ++ dq ++ ")" ++ post)
    /\ (forall n c, get_board_items_query board_id PyNone (PyInt n) (PyStr c)
                    = pre ++ "(limit: " ++ str_int n ++ ", cursor: "
                          ++ dq ++ c ++ dq ++ ")" ++ post).
Proof.
  intros pre. subst pre. eexists.
  split; [| split; [| split]]; intros;
    unfold get_board_items_query, gather_params;
    cbn; norm_append; reflexivity.
Qed.

(** C4.  [create_board_by_workspace_query] tests the workspace id for
    truth, not for [None]: with the workspace id [0] the mutation has no
    [workspace_id] argument and is the very mutation returned for [None],
    whereas [duplicate_board_query] writes [workspace_id: 0]; a truthy
    workspace id is written; for every argument the builder writes the
    workspace id exactly when it is truthy. *)
Theorem create_board_by_workspace_query_drops_falsy_workspace :
  contains "workspace_id"
    (create_board_by_workspace_query (PyStr "Roadmap") PUBLIC (PyInt 0)) = false
  /\ create_board_by_workspace_query (PyStr "Roadmap") PUBLIC (PyInt 0)
     = create_board_by_workspace_query (PyStr "Roadmap") PUBLIC PyNone
  /\ contains "workspace_id: 0"
       (duplicate_board_query (PyInt 1) DUPLICATE_WITH_STRUCTURE PyNone PyNone PyNone
          (PyInt 0)) = true
  /\ contains "board_kind: public, workspace_id: 7)"
       (create_board_by_workspace_query (PyStr "Roadmap") PUBLIC (PyInt 7)) = true
  /\ (forall (board_name : PyVal) (board_kind : BoardKind) (workspace_id : PyVal),
        create_board_by_workspace_query board_name board_kind workspace_id
        = "
    mutation {
        create_board (board_name:" ++ dq ++ str board_name ++ dq
          ++ ", board_kind: " ++ value board_kind ++ ", "
          ++ (if truthy workspace_id then "workspace_id: " ++ str workspace_id else "")
          ++ ") {
            id
        }
    }
    ").
Proof.
  split; [vm_compute; reflexivity |]. split; [reflexivity |].
  split; [vm_compute; reflexivity |]. split; [vm_compute; reflexivity |].
  intros board_name board_kind workspace_id.
  unfold create_board_by_workspace_query. now destruct (truthy workspace_id).
Qed.

(** ** Column fragments *)

Lemma get_item_by_id_query_frame (ids : PyVal)
    (specific_column_values : option (list ColumnType)) (g : Globals) :
  get_item_by_id_query ids specific_column_values g
  = (items_query_head ids
       ++ format_specific_column_values specific_column_values (COLUMN_VALUES_SPECIFIC g)
       ++ items_query_tail, g).
Proof.
  unfold get_item_by_id_query, bind, read, ret, items_query_head, items_query_tail.
  f_equal. norm_append. reflexivity.
Qed.

(** An entry for a type that is not requested does not change the result. *)
Lemma format_specific_column_values_insert (requested : list ColumnType)
    (table : gmap ColumnType string) (t : ColumnType) (fragment : string) :
  t ∉ requested ->
  format_specific_column_values (Some requested) (<[t := fragment]> table)
  = format_specific_column_values (Some requested) table.
Proof.
  intros Hnot. unfold format_specific_column_values. f_equal.
  induction requested as [|r requested IH]; [reflexivity |].
  apply not_elem_of_cons in Hnot as [Hne Hnot].
  simpl. rewrite lookup_insert_ne by congruence. now rewrite IH.
Qed.

Lemma concat_cons (a : string) (l : list string) :
  String.concat "" (a :: l) = a ++ String.concat "" l.
Proof. destruct l; [symmetry; apply append_empty_r | reflexivity]. Qed.

Lemma concat_app (l1 l2 : list string) :
  String.concat "" (l1 ++ l2)%list = String.concat "" l1 ++ String.concat "" l2.
Proof.
  induction l1 as [|a l1 IH]; [reflexivity |].
  change ((a :: l1) ++ l2)%list with (a :: (l1 ++ l2)%list).
  now rewrite !concat_cons, IH, append_assoc.
Qed.

(** The requested types without an entry can be left out of the request. *)
Lemma format_specific_column_values_entries (requested : list ColumnType)
    (table : gmap ColumnType string) :
  format_specific_column_values (Some requested) table
  = String.concat "" (omap (fun t => table !! t) requested).
Proof.
  unfold format_specific_column_values.
  induction requested as [|t requested IH]; [reflexivity |].
  rewrite map_cons, concat_cons, IH. simpl omap.
  destruct (table !! t) as [fragment|]; cbn [default];
    [now rewrite concat_cons | reflexivity].
Qed.

(** C5.  In a store whose table has the fragment [date] for [DATE] and
    [status] for [STATUS], whatever else it has, the query for [DATE] and
    [STATUS] carries [date] followed by [status] between the fixed head and
    tail of the query; with no request or an empty one nothing stands
    there; a single requested type contributes its entry, or nothing when
    it has none; and the store is returned as it was.  For every request,
    what stands there is the entries of the requested types that have one,
    in the order of the request: a type without an entry can be taken out
    of the request wherever it stands, and an entry for a type that is not
    requested changes nothing. *)
Theorem get_item_by_id_query_fragments (g : Globals) (ids : PyVal)
    (date status : string)
    (Hdate : COLUMN_VALUES_SPECIFIC g !! DATE = Some date)
    (Hstatus : COLUMN_VALUES_SPECIFIC g !! STATUS = Some status) :
  get_item_by_id_query ids (Some [DATE; STATUS]) g
  = (items_query_head ids ++ (date ++ status) ++ items_query_tail, g)
  /\ get_item_by_id_query ids None g
     = (items_query_head ids ++ "" ++ items_query_tail, g)
  /\ get_item_by_id_query ids (Some []) g
     = (items_query_head ids ++ "" ++ items_query_tail, g)
  /\ (forall t : ColumnType,
         get_item_by_id_query ids (Some [t]) g
         = (items_query_head ids ++ default "" (COLUMN_VALUES_SPECIFIC g !! t)
              ++ items_query_tail, g))
  /\ (forall (t : ColumnType) (fragment : string),
         t <> DATE -> t <> STATUS ->
         fst (get_item_by_id_query ids (Some [DATE; STATUS])
                {| COLUMN_VALUES_SPECIFIC := <[t := fragment]> (COLUMN_VALUES_SPECIFIC g) |})
         = fst (get_item_by_id_query ids (Some [DATE; STATUS]) g))
  /\ (forall requested : list ColumnType,
         get_item_by_id_query ids (Some requested) g
         = (items_query_head ids
              ++ String.concat "" (omap (fun t => COLUMN_VALUES_SPECIFIC g !! t) requested)
              ++ items_query_tail, g))
  /\ (forall (before after : list ColumnType) (t : ColumnType),
         COLUMN_VALUES_SPECIFIC g !! t = None ->
         get_item_by_id_query ids (Some (before ++ t :: after)%list) g
         = get_item_by_id_query ids (Some (before ++ after)%list) g)
  /\ (forall (requested : list ColumnType) (t : ColumnType) (fragment : string),
         t ∉ requested ->
         fst (get_item_by_id_query ids (Some requested)
                {| COLUMN_VALUES_SPECIFIC := <[t := fragment]> (COLUMN_VALUES_SPECIFIC g) |})
         = fst (get_item_by_id_query ids (Some requested) g)).
Proof.
  split; [| split; [| split; [| split; [| split; [| split; [| split]]]]]].
  - rewrite get_item_by_id_query_frame. unfold format_specific_column_values.
    cbn [map String.concat]. now rewrite Hdate, Hstatus.
  - now rewrite get_item_by_id_query_frame.
  - now rewrite get_item_by_id_query_frame.
  - intros t. rewrite get_item_by_id_query_frame. reflexivity.
  - intros t fragment Ht1 Ht2. rewrite !get_item_by_id_query_frame.
    cbn [fst COLUMN_VALUES_SPECIFIC].
    rewrite format_specific_column_values_insert; [reflexivity |].
    intros Hin. apply list_elem_of_In in Hin. destruct Hin as [<- | [<- | []]]; congruence.
  - intros requested.
    now rewrite get_item_by_id_query_frame, format_specific_column_values_entries.
  - intros before after t Ht.
    rewrite !get_item_by_id_query_frame, !format_specific_column_values_entries.
    rewrite !omap_app. simpl omap. now rewrite Ht.
  - intros requested t fragment Ht. rewrite !get_item_by_id_query_frame.
    cbn [fst COLUMN_VALUES_SPECIFIC].
    now rewrite format_specific_column_values_insert.
Qed.

Lemma get_item_by_id_query_fragments_witness :
  let date := "
        ... on DateValue {
            time
            date
            updated_at
            icon
        }" in
  let status := "
        ... on StatusValue {
            index
            is_done
            label
            label_style {
                border
                color
            }
            update_id
            updated_at
        }" in
  COLUMN_VALUES_SPECIFIC module_globals !! DATE = Some date
  /\ COLUMN_VALUES_SPECIFIC module_globals !! STATUS = Some status
  /\ get_item_by_id_query (PyList [PyInt 7]) (Some [DATE; STATUS]) module_globals
     = (items_query_head (PyList [PyInt 7]) ++ (date ++ status) ++ items_query_tail,
        module_globals)
  /\ get_item_by_id_query (PyList [PyInt 7]) (Some [TEXT]) module_globals
     = (items_query_head (PyList [PyInt 7]) ++ "" ++ items_query_tail, module_globals)
  /\ get_item_by_id_query (PyList [PyInt 7]) (Some [DATE; TEXT; STATUS]) module_globals
     = get_item_by_id_query (PyList [PyInt 7]) (Some [DATE; STATUS]) module_globals.
Proof.
  intros date status.
  assert (Hdate : COLUMN_VALUES_SPECIFIC module_globals !! DATE = Some date)
    by reflexivity.
  assert (Hstatus : COLUMN_VALUES_SPECIFIC module_globals !! STATUS = Some status)
    by reflexivity.
  split; [exact Hdate | split; [exact Hstatus |]].
  destruct (get_item_by_id_query_fragments module_globals (PyList [PyInt 7])
              date status Hdate Hstatus) as (H1 & _ & _ & H4 & _ & _ & H7 & _).
  split; [exact H1 | split; [exact (H4 TEXT) |]].
  exact (H7 [DATE] [STATUS] TEXT eq_refl).
Defined.

(** ** Column values *)

(** C6.  In [mutate_item_query] and [mutate_subitem_query] column values
    that are [None] or the empty map are written as [{}], and a map with
    entries as its JSON text; the map [{"status": {"label": "Done"}}] gives
    that very text. *)
Theorem column_values_serialized (x y z flag : PyVal) (k : string) (v : json)
    (d : list (string * json)) :
  mutate_item_query x y z JNull flag = mutate_item_query x y z (JObj []) flag
  /\ contains "column_values: {},
            create_labels_if_missing: " (mutate_item_query x y z (JObj []) flag) = true
  /\ mutate_subitem_query x y JNull flag = mutate_subitem_query x y (JObj []) flag
  /\ contains "column_values: {},
            create_labels_if_missing: " (mutate_subitem_query x y (JObj []) flag) = true
  /\ contains ("column_values: " ++ json_dumps (JObj ((k, v) :: d)) ++ ",
            create_labels_if_missing: ")
       (mutate_item_query x y z (JObj ((k, v) :: d)) flag) = true
  /\ contains ("column_values: " ++ json_dumps (JObj ((k, v) :: d)) ++ ",
            create_labels_if_missing: ")
       (mutate_subitem_query x y (JObj ((k, v) :: d)) flag) = true
  /\ json_dumps status_done
     = "{" ++ dq ++ "status" ++ dq ++ ": {" ++ dq ++ "label" ++ dq ++ ": "
           ++ dq ++ "Done" ++ dq ++ "}}".
Proof.
  unfold mutate_item_query, mutate_subitem_query, monday_json_stringify.
  cbv beta iota zeta delta [json_truthy].
  split; [reflexivity |]. split; [occurs |].
  split; [reflexivity |]. split; [occurs |].
  generalize (json_dumps (JObj ((k, v) :: d))); intros text.
  split; [occurs |]. split; [occurs |].
  vm_compute. reflexivity.
Qed.

(** ** Enum arguments *)

Lemma get_boards_query_enum (limit page ids board_kind state order_by : PyVal)
    (k : string) (e : EnumMember) :
  In (k, PyEnum e)
     [("limit", limit); ("page", page); ("ids", ids); ("board_kind", board_kind);
      ("state", state); ("order_by", order_by)] ->
  contains (k ++ ": " ++ value e)
    (get_boards_query limit page ids board_kind state order_by) = true.
Proof.
  intros Hin. unfold get_boards_query.
  set (parameters := [("limit", limit); _; _; _; _; _]) in *.
  set (query_params := flat_map _ parameters).
  assert (Hq : In (k ++ ": " ++ value e) query_params).
  { apply in_flat_map. exists (k, PyEnum e). split; [exact Hin | now left]. }
  cbv zeta. apply contains_skip_app, contains_app_l.
  destruct query_params as [|q qs] eqn:E; [destruct Hq |].
  rewrite <- E in *. apply contains_skip_app, contains_app_l.
  now apply contains_join.
Qed.

(** C7.  The enum arguments are written as their underlying value:
    [duplicate_type] in [duplicate_board_query], [column_type] in
    [create_column], and [board_kind], [state] and [order_by] in
    [get_boards_query]; for sample members no class or member name is in
    the text. *)
Theorem enum_arguments_emit_value (board_id title description : PyVal)
    (duplicate_type column_type board_kind state order_by : EnumMember)
    (board_name folder_id keep_subscribers workspace_id : PyVal)
    (defaults : json) (limit page ids a b : PyVal) :
  contains ("duplicate_type: " ++ value duplicate_type)
    (duplicate_board_query board_id duplicate_type board_name folder_id
       keep_subscribers workspace_id) = true
  /\ contains ("column_type: " ++ value column_type ++ ", defaults: ")
       (create_column board_id title (Some column_type) defaults description) = true
  /\ contains ("board_kind: " ++ value board_kind)
       (get_boards_query limit page ids (PyEnum board_kind) a b) = true
  /\ contains ("state: " ++ value state)
       (get_boards_query limit page ids a (PyEnum state) b) = true
  /\ contains ("order_by: " ++ value order_by)
       (get_boards_query limit page ids a b (PyEnum order_by)) = true
  /\ contains "boards (board_kind: public, state: active, order_by: created_at) {"
       (get_boards_query PyNone PyNone PyNone (PyEnum PUBLIC) (PyEnum ACTIVE)
          (PyEnum CREATED_AT)) = true
  /\ contains "duplicate_board(board_id: 1, duplicate_type: duplicate_board_with_structure) {"
       (duplicate_board_query (PyInt 1) DUPLICATE_WITH_STRUCTURE PyNone PyNone
          PyNone PyNone) = true
  /\ contains "DuplicateType"
       (duplicate_board_query (PyInt 1) DUPLICATE_WITH_STRUCTURE PyNone PyNone
          PyNone PyNone) = false
  /\ contains "ColumnType"
       (create_column (PyInt 1) (PyStr "State") (Some STATUS_TYPE) JNull (PyStr ""))
     = false.
Proof.
  split.
  { unfold duplicate_board_query. cbv zeta. occurs. }
  split.
  { unfold create_column. cbv zeta. occurs. }
  split; [apply (get_boards_query_enum _ _ _ _ _ _ "board_kind" board_kind);
          simpl; tauto |].
  split; [apply (get_boards_query_enum _ _ _ _ _ _ "state" state); simpl; tauto |].
  split; [apply (get_boards_query_enum _ _ _ _ _ _ "order_by" order_by);
          simpl; tauto |].
  repeat split; vm_compute; reflexivity.
Qed.

(** ** Pages *)

(** C9.  [get_update_query] writes [page: 1] for a page that is [None] or
    falsy, [0] included, and the page itself otherwise. *)
Theorem get_update_query_page (limit page : PyVal) :
  (exists post,
      get_update_query limit page
      = "query
        {
            updates (
                limit: " ++ str limit ++ ",
                page: " ++ (if truthy page then str page else "1") ++ post)
  /\ get_update_query limit page
     = get_update_query limit (if truthy page then page else PyInt 1)
  /\ get_update_query limit PyNone = get_update_query limit (PyInt 1)
  /\ get_update_query limit (PyInt 0) = get_update_query limit (PyInt 1)
  /\ contains "page: 1
" (get_update_query (PyInt 10) (PyInt 0)) = true
  /\ contains "page: 0" (get_update_query (PyInt 10) (PyInt 0)) = false
  /\ contains "page: 3
" (get_update_query (PyInt 10) (PyInt 3)) = true.
Proof.
  split.
  { eexists. unfold get_update_query. destruct (truthy page); reflexivity. }
  split.
  { unfold get_update_query. destruct (truthy page) eqn:E; [now rewrite E | reflexivity]. }
  repeat split; vm_compute; reflexivity.
Qed.

(** ** Columns without a type *)

(** C10.  Without a column type [create_column] returns a mutation with the
    [board_id] and [title] arguments alone, the same whatever description
    and defaults are given; with a column type the description and the
    defaults are arguments too. *)
Theorem create_column_without_type (board_id column_title : PyVal)
    (defaults defaults' : json) (description description' : PyVal)
    (column_type : EnumMember) :
  create_column board_id column_title None defaults description
  = "mutation{
            create_column(board_id: " ++ str board_id ++ ", title: " ++ dq
      ++ str column_title ++ dq ++ ") {
                id
                title
                description
            }
        }"
  /\ create_column board_id column_title None defaults description
     = create_column board_id column_title None defaults' description'
  /\ contains ("description: " ++ dq ++ str description ++ dq ++ ", column_type: ")
       (create_column board_id column_title (Some column_type) defaults description)
     = true
  /\ contains (", defaults: "
                 ++ monday_json_stringify (if json_truthy defaults then defaults else JObj [])
                 ++ ") {")
       (create_column board_id column_title (Some column_type) defaults description)
     = true
  /\ contains "description:"
       (create_column (PyInt 1) (PyStr "State") None
          (JObj [("labels", JArr [JStr "Done"])]) (PyStr "progress of the item")) = false
  /\ contains "defaults"
       (create_column (PyInt 1) (PyStr "State") None
          (JObj [("labels", JArr [JStr "Done"])]) (PyStr "progress of the item")) = false
  /\ contains "progress of the item"
       (create_column (PyInt 1) (PyStr "State") None
          (JObj [("labels", JArr [JStr "Done"])]) (PyStr "progress of the item")) = false.
Proof.
  split; [reflexivity |]. split; [reflexivity |].
  split.
  { unfold create_column. cbv zeta. occurs. }
  split.
  { unfold create_column. cbv zeta.
    generalize (monday_json_stringify (if json_truthy defaults then defaults else JObj [])).
    intros text. occurs. }
  repeat split; vm_compute; reflexivity.
Qed.

(** ** Brackets of the queries *)

Lemma scan_app (a b : string) (open : list bracket) :
  scan (a ++ b) open = then_scan (scan a open) b.
Proof.
  revert open. induction a as [|c a IH]; intros open; [reflexivity |].
  cbn [append scan]. destruct (opening c); [apply IH |].
  destruct (closing c); [| apply IH].
  destruct open as [|b' open]; [reflexivity |].
  destruct (bracket_eqb b0 b'); [apply IH | reflexivity].
Qed.

Lemma scan_frame (s : string) (open open' rest : list bracket) :
  scan s open = Some open' -> scan s (open ++ rest)%list = Some (open' ++ rest)%list.
Proof.
  revert open. induction s as [|c s IH]; intros open; cbn [scan].
  - now intros [= ->].
  - destruct (opening c); [apply (IH (b :: open)) |].
    destruct (closing c); [| apply IH].
    destruct open as [|b' open]; [discriminate |].
    cbn [app]. destruct (bracket_eqb b b'); [apply IH | discriminate].
Qed.

Lemma balanced_scan (s : string) (open : list bracket) :
  balanced s -> scan s open = Some open.
Proof. intros H. exact (scan_frame s [] [] open H). Qed.

Lemma balanced_app (a b : string) : balanced a -> balanced b -> balanced (a ++ b).
Proof.
  intros Ha Hb. unfold balanced. rewrite scan_app, Ha. exact Hb.
Qed.

Lemma balanced_join (sep : string) (parts : list string) :
  balanced sep -> Forall balanced parts -> balanced (join sep parts).
Proof.
  intros Hsep Hparts. induction Hparts as [|p parts Hp _ IH]; [reflexivity |].
  destruct parts as [|q parts]; [exact Hp |].
  change (join sep (p :: q :: parts)) with (p ++ sep ++ join sep (q :: parts)).
  auto using balanced_app.
Qed.

(** The decimal text of an integer has no bracket. *)
Lemma scan_uint (d : Decimal.uint) (rest : string) (open : list bracket) :
  scan (NilEmpty.string_of_uint d ++ rest) open = scan rest open.
Proof. induction d; cbn [NilEmpty.string_of_uint append scan]; auto. Qed.

Lemma balanced_str_int (n : Z) : balanced (str_int n).
Proof.
  unfold balanced, str_int.
  assert (H : forall d, scan (NilZero.string_of_uint d) [] = Some []).
  { intros d. rewrite <- (append_empty_r (NilZero.string_of_uint d)).
    destruct d; try exact (scan_uint _ "" []). reflexivity. }
  destruct (Z.to_int n) as [d|d]; cbn [NilZero.string_of_int]; [apply H |].
  cbn [scan]. apply H.
Qed.

Lemma glue_cons (p : bool * string) (pieces : list (bool * string)) :
  glue (p :: pieces) = snd p ++ glue pieces.
Proof. destruct pieces; [symmetry; apply append_empty_r | reflexivity]. Qed.

Lemma scan_glue (pieces : list (bool * string)) (open : list bracket) :
  Forall (fun p => fst p = true \/ balanced (snd p)) pieces ->
  scan (glue pieces) open = scan (literals pieces) open.
Proof.
  intros H. revert open. induction H as [|[lit s] pieces Hp _ IH]; intros open.
  - reflexivity.
  - rewrite glue_cons. cbn [literals fst snd] in *. rewrite scan_app.
    destruct lit.
    + rewrite scan_app. destruct (scan s open); [apply IH | reflexivity].
    + destruct Hp as [Hp | Hp]; [discriminate |].
      rewrite (balanced_scan s open Hp). apply IH.
Qed.

Lemma balanced_glue (pieces : list (bool * string)) :
  Forall (fun p => fst p = true \/ balanced (snd p)) pieces ->
  scan (literals pieces) [] = Some [] ->
  balanced (glue pieces).
Proof. intros H Hlit. unfold balanced. now rewrite scan_glue. Qed.

(** Splits a text into its pieces; a piece is a slot when it is known to
    be balanced. *)
Ltac pieces_of t :=
  lazymatch t with
  | String.append ?a ?b =>
      let pa := pieces_of a in
      let pb := pieces_of b in
      constr:((pa ++ pb)%list)
  | _ =>
      lazymatch goal with
      | H : balanced t |- _ => constr:([(false, t)])
      | _ =>
          lazymatch t with
          | String _ _ => constr:([(true, t)])
          | EmptyString => constr:([(true, t)])
          | dq => constr:([(true, t)])
          end
      end
  end.

Ltac scan_pieces :=
  rewrite ?append_assoc;
  lazymatch goal with
  | |- balanced ?t =>
      let ps := pieces_of t in
      let ps := eval cbv beta iota delta [List.app] in ps in
      change (balanced (glue ps));
      apply balanced_glue;
      [ repeat (lazymatch goal with
                | |- Forall _ (_ :: _) =>
                    constructor;
                    [cbn [fst snd]; first [left; reflexivity | right; assumption] |]
                end);
        constructor
      | vm_compute; reflexivity ]
  end.

Lemma get_users_query_balanced (kwargs : list (string * PyVal)) :
  Forall balanced (flat_map (fun kv => [fst kv; str (snd kv)]) kwargs) ->
  balanced (get_users_query kwargs).
Proof.
  intros H. unfold get_users_query. cbv zeta.
  assert (Hparts : Forall balanced (map (fun kv => fst kv ++ ": " ++ str (snd kv)) kwargs)).
  { induction kwargs as [|[k v] kwargs IH]; [constructor |].
    cbn [flat_map app fst snd] in H. inversion_clear H as [|? ? Hk H'].
    inversion_clear H' as [|? ? Hv H].
    cbn [map fst snd]. constructor; [| exact (IH H)].
    scan_pieces. }
  pose proof (balanced_join ", " _ eq_refl Hparts) as Hjoin.
  destruct kwargs; scan_pieces.
Qed.

Lemma get_boards_query_balanced (limit page ids board_kind state order_by : PyVal) :
  Forall balanced
    [emitted limit; emitted page; emitted ids; emitted board_kind; emitted state;
     emitted order_by] ->
  balanced (get_boards_query limit page ids board_kind state order_by).
Proof.
  intros H. unfold get_boards_query. cbv zeta.
  match goal with |- context [flat_map ?f ?l] => set (query_params := flat_map f l) end.
  assert (Hparts : Forall balanced query_params).
  { subst query_params. cbn [flat_map].
    repeat match goal with
           | H : Forall _ (_ :: _) |- _ => inversion_clear H
           end.
    unfold emitted in *.
    repeat apply Forall_app_2;
      try match goal with
          | |- Forall _ (if negb (is_none ?v) then _ else _) =>
              destruct (is_none v); cbn [negb]; constructor; [scan_pieces | constructor]
          end.
    constructor. }
  pose proof (balanced_join ", " _ eq_refl Hparts) as Hjoin.
  destruct query_params; scan_pieces.
Qed.

(** X1.  The templates are balanced around their slots: when the texts a call
    formats are balanced, so is the query it returns. *)
Theorem builders_balanced (c : Call) (texts : list string) (g : Globals) :
  interpolated c = Some texts -> Forall balanced texts ->
  balanced (fst (exec c g)).
Proof.
  intros Hc Htexts.
  destruct c; cbn [interpolated] in Hc; try discriminate;
    injection Hc as <-; cbn [exec ret fst];
    try (now apply get_users_query_balanced);
    try (now apply get_boards_query_balanced);
    repeat match goal with
           | H : Forall _ (_ :: _) |- _ => inversion_clear H
           end;
    unfold or_empty in *.
  all: try (unfold mutate_item_query, mutate_subitem_query, update_item_query,
      move_item_to_group_query, archive_item_query, delete_item_query,
      get_columns_by_board_query, update_multiple_column_values_query,
      add_file_to_column_query, create_update_query, delete_update_query,
      get_updates_for_item_query, get_boards_by_id_query,
      get_groups_by_board_query, create_group_query, duplicate_group_query,
      archive_group_query, delete_group_query, get_complexity_query,
      get_workspaces_query, create_workspace_query, add_users_to_workspace_query,
      delete_users_from_workspace_query, add_teams_to_workspace_query,
      delete_teams_from_workspace_query, create_notification_query, get_me_query;
      cbv zeta; scan_pieces; fail).
  - (* create_column *)
    unfold create_column. cbv zeta.
    match goal with |- context [match ?ct with Some _ => _ | None => _ end] =>
      destruct ct end; cbn [from_option] in *; scan_pieces.
  - (* get_update_query *)
    unfold get_update_query.
    match goal with |- context [truthy ?p] => destruct (truthy p) end;
      [| change (str (PyInt 1)) with "1"]; scan_pieces.
  - (* get_tags_query *)
    unfold get_tags_query. cbv zeta.
    match goal with |- context [is_none ?t] => destruct (is_none t) end;
      [change (str (PyList [])) with "[]" |]; scan_pieces.
  - (* duplicate_board_query *)
    unfold duplicate_board_query. cbv zeta.
    repeat match goal with |- context [is_none ?t] => destruct (is_none t) end;
      cbn [negb]; scan_pieces.
  - (* create_board_by_workspace_query *)
    unfold create_board_by_workspace_query. cbv zeta.
    match goal with |- context [truthy ?p] => destruct (truthy p) end; scan_pieces.
Qed.

Lemma builders_balanced_witness :
  interpolated (call_duplicate_board_query (PyInt 1) DUPLICATE_WITH_STRUCTURE
                  (PyStr "Copy (2)") PyNone (PyBool true) PyNone)
  = Some ["1"; "duplicate_board_with_structure"; "Copy (2)"; "None"; "True"; "None"]
  /\ Forall balanced
       ["1"; "duplicate_board_with_structure"; "Copy (2)"; "None"; "True"; "None"]
  /\ balanced
       (fst (exec (call_duplicate_board_query (PyInt 1) DUPLICATE_WITH_STRUCTURE
                     (PyStr "Copy (2)") PyNone (PyBool true) PyNone)
               module_globals)).
Proof.
  assert (H : Forall balanced
                ["1"; "duplicate_board_with_structure"; "Copy (2)"; "None"; "True"; "None"])
    by (repeat constructor).
  split; [reflexivity | split; [exact H |]].
  exact (builders_balanced
           (call_duplicate_board_query (PyInt 1) DUPLICATE_WITH_STRUCTURE
              (PyStr "Copy (2)") PyNone (PyBool true) PyNone)
           _ module_globals eq_refl H).
Defined.

Lemma table_fragment_balanced (t : ColumnType) (fragment : string) :
  COLUMN_VALUES_SPECIFIC_init !! t = Some fragment -> balanced fragment.
Proof.
  intros H.
  destruct t; vm_compute in H; try discriminate; injection H as <-;
    vm_compute; reflexivity.
Qed.

(** X2.  Every fragment of the table is an inline fragment with balanced
    brackets. *)
Theorem table_fragments_well_formed (t : ColumnType) (fragment : string) :
  COLUMN_VALUES_SPECIFIC_init !! t = Some fragment ->
  balanced fragment
  /\ String.prefix "
        ... on " fragment = true
  /\ contains "Value {" fragment = true.
Proof.
  intros H.
  destruct t; vm_compute in H; try discriminate; injection H as <-;
    repeat split; vm_compute; reflexivity.
Qed.

Lemma table_fragments_well_formed_witness :
  COLUMN_VALUES_SPECIFIC_init !! TAGS = Some "
        ... on TagsValue {
            tag_ids
        }"
  /\ balanced "
        ... on TagsValue {
            tag_ids
        }".
Proof.
  assert (H : COLUMN_VALUES_SPECIFIC_init !! TAGS = Some "
        ... on TagsValue {
            tag_ids
        }") by reflexivity.
  split; [exact H |].
  exact (proj1 (table_fragments_well_formed TAGS _ H)).
Defined.

Lemma format_specific_column_values_balanced
    (specific_column_values : option (list ColumnType)) :
  balanced (format_specific_column_values specific_column_values
              COLUMN_VALUES_SPECIFIC_init).
Proof.
  destruct specific_column_values as [requested|]; [| reflexivity].
  cbn [format_specific_column_values].
  induction requested as [|t requested IH]; [reflexivity |].
  assert (Ht : balanced (default "" (COLUMN_VALUES_SPECIFIC_init !! t))).
  { destruct (COLUMN_VALUES_SPECIFIC_init !! t) as [fragment|] eqn:E; [| reflexivity].
    exact (table_fragment_balanced t fragment E). }
  cbn [map String.concat].
  destruct (map _ requested) eqn:E; [exact Ht |].
  rewrite <- E in *. apply balanced_app; [exact Ht | exact IH].
Qed.

(** X3.  For every selection of column types, [get_item_by_id_query] on the
    module's table has balanced brackets when the ids have. *)
Theorem get_item_by_id_query_balanced (ids : PyVal)
    (specific_column_values : option (list ColumnType)) :
  balanced (str ids) ->
  balanced (fst (get_item_by_id_query ids specific_column_values module_globals)).
Proof.
  intros Hids. rewrite get_item_by_id_query_frame. cbn [fst COLUMN_VALUES_SPECIFIC module_globals].
  pose proof (format_specific_column_values_balanced specific_column_values) as Hf.
  unfold items_query_head, items_query_tail. scan_pieces.
Qed.

Lemma get_item_by_id_query_balanced_witness :
  balanced (str (PyList [PyInt 7; PyInt 8]))
  /\ balanced (fst (get_item_by_id_query (PyList [PyInt 7; PyInt 8])
                      (Some [STATUS; TEXT; DATE]) module_globals)).
Proof.
  assert (H : balanced (str (PyList [PyInt 7; PyInt 8]))) by reflexivity.
  split; [exact H |].
  exact (get_item_by_id_query_balanced (PyList [PyInt 7; PyInt 8])
           (Some [STATUS; TEXT; DATE]) H).
Defined.

(** ** Escaping *)

(** X5.  The builders that put a text between quotes do not escape it: in
    [create_workspace_query] a name with a quote takes over the arguments
    that follow, and two different calls return the same mutation. *)
Theorem create_workspace_query_quote_injection (a b c k d : string) :
  create_workspace_query
    (PyStr (a ++ dq ++ ", kind: " ++ b ++ ", description: " ++ dq ++ c))
    (PyStr k) (PyStr d)
  = create_workspace_query (PyStr a) (PyStr b)
      (PyStr (c ++ dq ++ ", kind: " ++ k ++ ", description: " ++ dq ++ d)).
Proof.
  unfold create_workspace_query. cbn [str]. norm_append. reflexivity.
Qed.

(** ** Absent and falsy arguments *)

(** As [occurs], trying only the places where the first piece agrees. *)
Ltac find_at_start :=
  first [ lazymatch goal with
          | |- contains (String ?c _) (String ?c _) = true => here
          | |- contains (String.append ?t _) (String.append ?t _) = true => here
          end
        | apply contains_skip; find_at_start
        | lazymatch goal with
          | |- contains _ (String.append _ _) = true =>
              apply contains_skip_app; find_at_start
          end ].

Ltac occurs_at_start := norm_append; find_at_start.

(** X6.  [get_tags_query] takes [None], and [None] alone, for the empty
    list: every other value of the kinds above (a tuple is not one of
    them), a falsy one too, is written as [str] gives it. *)
Theorem get_tags_query_none (tags : PyVal) :
  get_tags_query PyNone = get_tags_query (PyList [])
  /\ contains "tags (ids: []) {" (get_tags_query PyNone) = true
  /\ is_none tags || contains ("tags (ids: " ++ str tags ++ ") {") (get_tags_query tags)
     = true.
Proof.
  split; [reflexivity |]. split; [vm_compute; reflexivity |].
  destruct (is_none tags) eqn:E; [reflexivity |].
  unfold get_tags_query. rewrite E. cbn [orb]. occurs_at_start.
Qed.



Lemma get_boards_query_param (limit page ids board_kind state order_by : PyVal)
    (k : string) (v : PyVal) :
  In (k, v)
     [("limit", limit); ("page", page); ("ids", ids); ("board_kind", board_kind);
      ("state", state); ("order_by", order_by)] ->
  is_none v = false ->
  contains (k ++ ": " ++ emitted v)
    (get_boards_query limit page ids board_kind state order_by) = true.
Proof.
  intros Hin Hv. unfold get_boards_query.
  set (parameters := [("limit", limit); _; _; _; _; _]) in *.
  set (query_params := flat_map _ parameters).
  assert (Hq : In (k ++ ": " ++ emitted v) query_params).
  { apply in_flat_map. exists (k, v). split; [exact Hin |].
    cbv beta iota. rewrite Hv. now left. }
  cbv zeta. apply contains_skip_app, contains_app_l.
  destruct query_params as [|q qs] eqn:E; [destruct Hq |].
  rewrite <- E in *. apply contains_skip_app, contains_app_l.
  now apply contains_join.
Qed.

(** X8.  [get_boards_query] writes every argument that is not [None], falsy
    ones too, an enum member as its value; with no argument at all it
    writes no parentheses. *)
Theorem get_boards_query_arguments (limit page ids board_kind state order_by : PyVal) :
  let q := get_boards_query limit page ids board_kind state order_by in
  is_none limit || contains ("limit: " ++ emitted limit) q = true
  /\ is_none page || contains ("page: " ++ emitted page) q = true
  /\ is_none ids || contains ("ids: " ++ emitted ids) q = true
  /\ is_none board_kind || contains ("board_kind: " ++ emitted board_kind) q = true
  /\ is_none state || contains ("state: " ++ emitted state) q = true
  /\ is_none order_by || contains ("order_by: " ++ emitted order_by) q = true
  /\ contains "boards  {" (get_boards_query PyNone PyNone PyNone PyNone PyNone PyNone)
     = true
  /\ contains "boards (limit: 0, ids: []) {"
       (get_boards_query (PyInt 0) PyNone (PyList []) PyNone PyNone PyNone) = true.
Proof.
  intros q. subst q.
  assert (H : forall k v,
             In (k, v) [("limit", limit); ("page", page); ("ids", ids);
                        ("board_kind", board_kind); ("state", state);
                        ("order_by", order_by)] ->
             is_none v || contains (k ++ ": " ++ emitted v)
               (get_boards_query limit page ids board_kind state order_by) = true).
  { intros k v Hin. destruct (is_none v) eqn:E; [reflexivity |].
    now apply get_boards_query_param. }
  split; [apply (H "limit" limit); simpl; tauto |].
  split; [apply (H "page" page); simpl; tauto |].
  split; [apply (H "ids" ids); simpl; tauto |].
  split; [apply (H "board_kind" board_kind); simpl; tauto |].
  split; [apply (H "state" state); simpl; tauto |].
  split; [apply (H "order_by" order_by); simpl; tauto |].
  clear H. split; vm_compute; reflexivity.
Qed.

(** X9.  [duplicate_board_query] writes each optional argument that is not
    [None], falsy ones too, and with none of them only the board and the
    duplicate type. *)
Theorem duplicate_board_query_optional (board_id : PyVal) (duplicate_type : DuplicateType)
    (board_name folder_id keep_subscribers workspace_id : PyVal) :
  let q := duplicate_board_query board_id duplicate_type board_name folder_id
             keep_subscribers workspace_id in
  is_none board_name
  || contains (", board_name: " ++ dq ++ str board_name ++ dq) q = true
  /\ is_none folder_id || contains (", folder_id: " ++ str folder_id) q = true
  /\ is_none keep_subscribers
     || contains (", keep_subscribers: " ++ str keep_subscribers) q = true
  /\ is_none workspace_id
     || contains (",  workspace_id: " ++ str workspace_id ++ ") {") q = true
  /\ contains ("duplicate_board(board_id: " ++ str board_id ++ ", duplicate_type: "
                 ++ value duplicate_type ++ ") {")
       (duplicate_board_query board_id duplicate_type PyNone PyNone PyNone PyNone)
     = true.
Proof.
  intros q. subst q. unfold duplicate_board_query. cbv zeta.
  repeat split.
  - destruct (is_none board_name); [reflexivity |].
    destruct (is_none folder_id), (is_none keep_subscribers), (is_none workspace_id);
      cbn [negb orb]; occurs_at_start.
  - destruct (is_none folder_id); [reflexivity |]. cbn [negb orb].
    generalize (if negb (is_none board_name)
                then "" ++ ", board_name: " ++ dq ++ str board_name ++ dq else "").
    intros before.
    destruct (is_none keep_subscribers), (is_none workspace_id);
      cbn [negb]; occurs_at_start.
  - destruct (is_none keep_subscribers); [reflexivity |]. cbn [negb orb].
    match goal with
    | |- context [(?before ++ ", keep_subscribers: " ++ _)] => generalize before
    end.
    intros before. destruct (is_none workspace_id); cbn [negb]; occurs_at_start.
  - destruct (is_none workspace_id); [reflexivity |]. cbn [negb orb].
    match goal with
    | |- context [(?before ++ ",  workspace_id: " ++ _)] => generalize before
    end.
    intros before. occurs_at_start.
  - cbn [is_none negb]. occurs_at_start.
Qed.

(** X10.  Column values and defaults that are falsy, not only [None] and the
    empty map, are replaced by the empty map. *)
Theorem falsy_maps_default_to_empty (j : json) (x y z flag : PyVal)
    (column_type : option EnumMember) (Hfalsy : json_truthy j = false) :
  mutate_item_query x y z j flag = mutate_item_query x y z (JObj []) flag
  /\ mutate_subitem_query x y j flag = mutate_subitem_query x y (JObj []) flag
  /\ create_column x y column_type j z = create_column x y column_type (JObj []) z.
Proof.
  unfold mutate_item_query, mutate_subitem_query, create_column.
  cbv zeta. rewrite Hfalsy. repeat split.
Qed.

Lemma falsy_maps_default_to_empty_witness :
  json_truthy (JArr []) = false
  /\ mutate_item_query (PyInt 1) (PyStr "topics") (PyStr "Task") (JArr []) (PyBool false)
     = mutate_item_query (PyInt 1) (PyStr "topics") (PyStr "Task") (JObj []) (PyBool false).
Proof.
  split; [reflexivity |].
  exact (proj1 (falsy_maps_default_to_empty (JArr []) (PyInt 1) (PyStr "topics")
                  (PyStr "Task") (PyBool false) None eq_refl)).
Defined.

(** ** Items by column value *)

(** X11.  [get_item_query] uses the column id and the value through [str] only. *)
Theorem get_item_query_column_as_text (board_id limit cursor : PyVal)
    (column_id column_id' value value' : PyVal)
    (Hcolumn : str column_id = str column_id') (Hvalue : str value = str value') :
  get_item_query board_id column_id value limit cursor
  = get_item_query board_id column_id' value' limit cursor.
Proof.
  unfold get_item_query, gather_params. cbv zeta.
  cbn [List.filter existsb fst snd String.eqb Ascii.eqb Bool.eqb orb negb andb].
  now rewrite Hcolumn, Hvalue.
Qed.

Lemma get_item_query_column_as_text_witness :
  str (PyInt 5) = str (PyStr "5") /\ str (PyBool true) = str (PyStr "True")
  /\ get_item_query (PyInt 1) (PyInt 5) (PyBool true) PyNone PyNone
     = get_item_query (PyInt 1) (PyStr "5") (PyStr "True") PyNone PyNone.
Proof.
  split; [reflexivity | split; [reflexivity |]].
  exact (get_item_query_column_as_text (PyInt 1) PyNone PyNone (PyInt 5) (PyStr "5")
           (PyBool true) (PyStr "True") eq_refl eq_refl).
Defined.

(** X12.  With a cursor, [get_item_query] does not depend on the column id and
    the value at all. *)
Theorem get_item_query_cursor_ignores_column (board_id limit cursor : PyVal)
    (column_id column_id' value value' : PyVal) (Hcursor : truthy cursor = true) :
  get_item_query board_id column_id value limit cursor
  = get_item_query board_id column_id' value' limit cursor.
Proof.
  unfold get_item_query, gather_params. cbv zeta. rewrite Hcursor.
  cbn [List.filter existsb fst snd String.eqb Ascii.eqb Bool.eqb orb negb andb].
  reflexivity.
Qed.

Lemma get_item_query_cursor_ignores_column_witness :
  truthy (PyStr "MSw5NzI4") = true
  /\ get_item_query (PyInt 1) (PyStr "status") (PyStr "Done") PyNone (PyStr "MSw5NzI4")
     = get_item_query (PyInt 1) (PyStr "date") (PyStr "2024") PyNone (PyStr "MSw5NzI4").
Proof.
  split; [reflexivity |].
  exact (get_item_query_cursor_ignores_column (PyInt 1) PyNone (PyStr "MSw5NzI4")
           (PyStr "status") (PyStr "date") (PyStr "Done") (PyStr "2024") eq_refl).
Defined.

(** ** Kinds of operation *)

(** X13.  A builder named [get_...] returns a query, [get_me_query] in the short
    form that opens with a brace, and every other builder a mutation. *)
Theorem operation_kind (c : Call) (g : Globals) :
  first_word (fst (exec c g))
  = if is_getter c
    then match c with call_get_me_query => "" | _ => "query" end
    else "mutation".
Proof.
  destruct c; try reflexivity.
  match goal with |- context [call_create_column _ _ ?ct _ _] => destruct ct end;
    reflexivity.
Qed.
